(** * restful/views.py: access policy, conflict translation and listings

    A shallow embedding of the request handlers of [restful/views.py].
    The handlers are thin classes over a web framework; the parts of the
    framework they call into (permission classes, exception dispatch,
    page-number pagination, [serializer.save]) are embedded next to them
    so that the handlers can be evaluated. *)

From Stdlib Require Import ZArith List String Bool Lia Sorted Permutation.
From Stdlib Require Uint63 PrimFloat.
Import ListNotations.

Local Open Scope string_scope.
Local Open Scope Z_scope.

(** ** Values exchanged with the client *)

(** The data of a response: what the JSON renderer receives.  A Python
    dict keeps its insertion order, which the rendered body shows, so an
    object is an association list. *)
#[local] Unset Elimination Schemes.
Inductive json : Type :=
| JNull : json
| JInt : Z -> json
| JFloat : PrimFloat.float -> json
| JStr : string -> json
| JList : list json -> json
| JDict : list (string * json) -> json.
#[local] Set Elimination Schemes.

(** [rest_framework.response.Response(data, status)]; the status is 200
    when the handler gives none. *)
Record Response : Type := mkResponse { data : json; status_code : Z }.

Module status.
Definition HTTP_200_OK : Z := 200.
Definition HTTP_201_CREATED : Z := 201.
Definition HTTP_400_BAD_REQUEST : Z := 400.
Definition HTTP_401_UNAUTHORIZED : Z := 401.
Definition HTTP_403_FORBIDDEN : Z := 403.
Definition HTTP_404_NOT_FOUND : Z := 404.
Definition HTTP_500_INTERNAL_SERVER_ERROR : Z := 500.
End status.

(** ** Identities *)

(** [request.user]: an instance of [AnonymousUser] or of the [User] model
    (primary key and staff flag). *)
Inductive user : Type :=
| AnonymousUser : user
| User (pk : Z) (is_staff : bool) : user.

(** [type(u) == AnonymousUser] *)
Definition type_is_AnonymousUser (u : user) : bool :=
  match u with AnonymousUser => true | User _ _ => false end.

(** [u.is_authenticated] *)
Definition is_authenticated (u : user) : bool :=
  match u with AnonymousUser => false | User _ _ => true end.

(** [u.is_staff]; [AnonymousUser.is_staff] is [False]. *)
Definition user_is_staff (u : user) : bool :=
  match u with AnonymousUser => false | User _ s => s end.

(** Truth value of a user object: neither class defines [__bool__] or
    [__len__], so every instance is truthy. *)
Definition truthy (u : user) : bool := true.


(** ** Exceptions *)

(** The exception classes that reach a view's [handle_exception]. *)
Inductive exc_class : Type :=
| IntegrityError
| DatabaseError
| DoesNotExist
| ValidationError
| NotFound
| NotAuthenticated
| AuthenticationFailed
| PermissionDenied.

Record exn : Type := mkExn { exc_type : exc_class; exc_args : string }.

(** [isinstance(exc, IntegrityError)]: [IntegrityError] has no subclass
    among the classes above ([DatabaseError] is its parent). *)
Definition isinstance_IntegrityError (exc : exn) : bool :=
  match exc_type exc with IntegrityError => true | _ => false end.

(** What makes the storage layer refuse a write.  The database wrapper
    raises the one class [IntegrityError] for every one of them; only the
    text of the exception tells them apart. *)
Inductive constraint : Type :=
| UniqueConstraint
| NotNullConstraint
| ForeignKeyConstraint
| CheckConstraint.

Definition constraint_name (c : constraint) : string :=
  match c with
  | UniqueConstraint => "UNIQUE"
  | NotNullConstraint => "NOT NULL"
  | ForeignKeyConstraint => "FOREIGN KEY"
  | CheckConstraint => "CHECK"
  end.

(** The exception a write raises when it breaks constraint [c] on
    [target]. *)
Definition constraint_failed (c : constraint) (target : string) : exn :=
  mkExn IntegrityError (constraint_name c ++ " constraint failed: " ++ target).

(** A computation that returns or raises. *)
Inductive result (A : Type) : Type :=
| Ok : A -> result A
| Raise : exn -> result A.
Arguments Ok {A} _.
Arguments Raise {A} _.

Definition bind {A B : Type} (c : result A) (k : A -> result B) : result B :=
  match c with Ok a => k a | Raise e => Raise e end.

Notation "x <- c ;; k" := (bind c (fun x => k))
  (at level 61, c at next level, right associativity).

(** ** Permission classes *)

Inductive permission : Type :=
| AllowAny
| IsAdminUser
| IsAuthenticated
| IsOwner.

(** [permission.has_permission(request, view)] as the framework defines
    it: [AllowAny] grants, [IsAuthenticated] is
    [bool(request.user and request.user.is_authenticated)], [IsAdminUser]
    is [bool(request.user and request.user.is_staff)].  [IsOwner] keeps
    the view-level default of [BasePermission]. *)
Definition has_permission (p : permission) (u : user) : bool :=
  match p with
  | AllowAny => true
  | IsAuthenticated => truthy u && is_authenticated u
  | IsAdminUser => truthy u && user_is_staff u
  | IsOwner => true
  end.

(** Modelled from the spec: [restful/permissions.py] ([IsOwner]) is not
    among the sources.  The glossary defines owner-only as "action
    permitted only when the acting identity equals the resource's
    associated user"; [owner] is the primary key of the user the target
    record belongs to. *)
Definition IsOwner_has_object_permission (u : user) (owner : Z) : bool :=
  match u with
  | AnonymousUser => false
  | User pk _ => pk =? owner
  end.

(** [permission.has_object_permission(request, view, obj)]: the
    framework's classes keep the default [True]. *)
Definition has_object_permission (p : permission) (u : user) (owner : Z) : bool :=
  match p with
  | IsOwner => IsOwner_has_object_permission u owner
  | _ => true
  end.

(** [check_permissions] followed, for an action on one record, by the
    [check_object_permissions] that [get_object] runs: the request goes
    on only when every permission grants. *)
Definition granted (perms : list permission) (u : user) (target : option Z) : bool :=
  forallb (fun p => has_permission p u) perms
  && match target with
     | None => true
     | Some owner => forallb (fun p => has_object_permission p u owner) perms
     end.

(** [[permission() for permission in permission_classes]]: a permission
    class has no state, so its instance is the class. *)
Definition instances (permission_classes : list permission) : list permission :=
  map (fun permission => permission) permission_classes.

(** ** Model rows *)

(** Modelled from the spec: [restful/models.py] and [customuser/models.py]
    are not among the sources; the rows carry the fields of section 3 of
    the specification that the views read ([user], [pool], [value],
    [created_at], [uploaded_at]).  Times are seconds on one clock, and a
    reference to a user or a pool is its primary key. *)
Module Pool.
Record t : Type := mk
  { id : Z; slug : string; name : string;
    created_by : Z; created_at : Z;
    updated_by : option Z; updated_at : option Z }.
End Pool.

Module Booking.
Record t : Type := mk
  { slug : string; user : Z; pool : Z; created_at : Z;
    updated_by : option Z; updated_at : option Z }.
End Booking.

Module Rating.
Record t : Type := mk
  { slug : string; user : Z; pool : Z; value : Z; created_at : Z }.
End Rating.

Module FileUpload.
Record t : Type := mk { file : string; uploaded_at : Z }.
End FileUpload.

Module UserRow.
Record t : Type := mk
  { id : Z; username : string; email : string; is_staff : bool }.
End UserRow.

(** ** Query sets *)

Section QuerySet.
Context {A : Type}.
Variable key : A -> Z.

(** Place of one row in a sequence already in descending [key] order; a
    row goes in front of the rows it ties with. *)
Fixpoint insert_desc (x : A) (rows : list A) : list A :=
  match rows with
  | [] => [x]
  | y :: rest =>
      if key y <=? key x then x :: y :: rest else y :: insert_desc x rest
  end.

(** [queryset.order_by('-key')] *)
Definition order_by_desc (rows : list A) : list A :=
  fold_right insert_desc [] rows.

(** The order a listing is read in: no row is older than a row after it. *)
Definition newest_first (a b : A) : Prop := key b <= key a.

End QuerySet.

(** [Model.objects.filter(user=u)]: the rows whose [user] column holds
    the primary key of [u]; an anonymous user has none. *)
Definition user_is (u : user) (row_user : Z) : bool :=
  match u with
  | AnonymousUser => false
  | User pk _ => row_user =? pk
  end.

(** *** Aggregation *)

(** The rows of [pool LEFT OUTER JOIN rating ON rating.pool_id = pool.id]
    that [annotate] builds for the lookup ['rating__value']: a pool nobody
    rated keeps one row whose rating side is NULL. *)
Definition join_rows (p : Pool.t) (ratings : list Rating.t)
  : list (Pool.t * option Rating.t) :=
  match filter (fun r => Rating.pool r =? Pool.id p) ratings with
  | [] => [(p, None)]
  | rated => map (fun r => (p, Some r)) rated
  end.

Definition left_outer_join (pools : list Pool.t) (ratings : list Rating.t)
  : list (Pool.t * option Rating.t) :=
  flat_map (fun p => join_rows p ratings) pools.

(** The non-NULL cells of a column. *)
Fixpoint non_null (column : list (option Z)) : list Z :=
  match column with
  | [] => []
  | None :: rest => non_null rest
  | Some v :: rest => v :: non_null rest
  end.

Definition Zsum (values : list Z) : Z := fold_right Z.add 0 values.

(** An integer as the double-precision float the database makes of it:
    exact up to 2^53, rounded to nearest above, and the 63 bits the
    primitive conversion takes are more than a sum of ratings needs. *)
Definition float_of_Z (z : Z) : PrimFloat.float :=
  match z with
  | Z0 => PrimFloat.zero
  | Zpos _ => PrimFloat.of_uint63 (Uint63.of_Z z)
  | Zneg p => PrimFloat.opp (PrimFloat.of_uint63 (Uint63.of_Z (Zpos p)))
  end.

(** [Avg] over an integer column, which Django reads back as a float:
    NULL cells are skipped, a group without a non-NULL cell averages to
    NULL, and the value is the float quotient of the sum of the cells by
    their number.  That is how SQLite, the backend a Django project
    starts with, computes [AVG]; the project's settings are not among the
    sources. *)
Definition Avg (column : list (option Z)) : option PrimFloat.float :=
  match non_null column with
  | [] => None
  | v :: vs =>
      Some (PrimFloat.div (float_of_Z (Zsum (v :: vs)))
              (float_of_Z (Z.of_nat (List.length (v :: vs)))))
  end.

(** [GROUP BY pool.id]: the joined rows of one pool. *)
Definition group_of (p : Pool.t) (joined : list (Pool.t * option Rating.t))
  : list (Pool.t * option Rating.t) :=
  filter (fun row => Pool.id (fst row) =? Pool.id p) joined.

(** A pool with the annotation [_average_value]. *)
Module AnnotatedPool.
Record t : Type := mk { pool : Pool.t; _average_value : option PrimFloat.float }.
Definition created_at (row : t) : Z := Pool.created_at (pool row).
End AnnotatedPool.

(** [Pool.objects.all().annotate(_average_value=Avg('rating__value'))] *)
Definition annotate_average_value (pools : list Pool.t) (ratings : list Rating.t)
  : list AnnotatedPool.t :=
  let joined := left_outer_join pools ratings in
  map (fun p =>
         AnnotatedPool.mk p
           (Avg (map (fun row => option_map Rating.value (snd row)) (group_of p joined))))
      pools.

(** ** Keyword arguments and serializers *)

(** A value held by a field of a serializer or passed as a keyword. *)
Inductive value : Type :=
| VNone : value
| VInt : Z -> value
| VStr : string -> value
| VUser : user -> value
| VTime : Z -> value.

(** A Python dict from field names to values, in insertion order. *)
Definition dict : Type := list (string * value).

(** [d.get(k)] *)
Fixpoint dict_get (k : string) (d : dict) : option value :=
  match d with
  | [] => None
  | (k', v) :: rest => if String.eqb k' k then Some v else dict_get k rest
  end.

(** [d[k] = v]: an existing key keeps its place, a new one goes last. *)
Fixpoint dict_set (k : string) (v : value) (d : dict) : dict :=
  match d with
  | [] => [(k, v)]
  | (k', v') :: rest =>
      if String.eqb k' k then (k', v) :: rest else (k', v') :: dict_set k v rest
  end.

(** [{**d, **kwargs}] *)
Definition dict_merge (d kwargs : dict) : dict :=
  fold_left (fun acc kv => dict_set (fst kv) (snd kv) acc) kwargs d.

(** A serializer after [is_valid()]: its [validated_data], and the
    [instance] it has saved, if any.  The instance is the record as the
    model manager receives it, field by field. *)
Module Serializer.
Record t : Type := mk { validated_data : dict; instance : option dict }.
End Serializer.

(** [serializer.save] with keyword arguments [kwargs], as the framework
    defines it:
    [validated_data = {**self.validated_data, **kwargs}], then
    [self.instance = self.create(validated_data)] for a serializer with no
    instance, and [self.update(self.instance, validated_data)], which
    assigns every item to the instance, otherwise. *)
Definition save (serializer : Serializer.t) (kwargs : dict) : Serializer.t :=
  let validated_data := dict_merge (Serializer.validated_data serializer) kwargs in
  match Serializer.instance serializer with
  | None =>
      Serializer.mk (Serializer.validated_data serializer) (Some validated_data)
  | Some instance =>
      Serializer.mk (Serializer.validated_data serializer)
        (Some (dict_merge instance validated_data))
  end.


(** [CreateModelMixin.perform_create], which a view set inherits unless
    it defines its own: [serializer.save()]. *)
Definition CreateModelMixin_perform_create (serializer : Serializer.t) : Serializer.t :=
  save serializer [].

(** ** Requests *)

(** The request a handler receives: the authenticated [user], the parsed
    [data], the [page] query parameter (1 when absent), the link the
    framework builds to another page of the same listing, and the time
    [timezone.now()] reads. *)
Module Request.
Record t : Type := mk
  { user : user; data : dict; page : nat; page_link : nat -> string; now : Z }.
End Request.



(** ** Page-number pagination *)

(** The two settings the framework's paginator reads; the project's
    settings module is not among the sources, so they stay a parameter of
    every listing. *)
Module api_settings.
Record t : Type := mk { DEFAULT_PAGINATION_CLASS : bool; PAGE_SIZE : option nat }.
End api_settings.

(** [django.core.paginator.Page]: the rows of one page, its number, and
    the paginator's [count] and [per_page]. *)
Module Page.
Record t (A : Type) : Type := mk
  { object_list : list A; number : nat; count : nat; per_page : nat }.
Arguments mk {A} _ _ _ _.
Arguments object_list {A} _.
Arguments number {A} _.
Arguments count {A} _.
Arguments per_page {A} _.
End Page.

(** [Paginator.num_pages] with [orphans = 0] and an empty first page
    allowed: [ceil(max(1, count) / per_page)]. *)
Definition num_pages (count per_page : nat) : nat :=
  ((Nat.max 1 count + per_page - 1) / per_page)%nat.

Section Pagination.
Context {A : Type}.

(** [object_list[bottom:top]] *)
Definition slice (bottom top : nat) (rows : list A) : list A :=
  firstn (top - bottom) (skipn bottom rows).

(** [Paginator(queryset, page_size).page(number)]; an invalid page is the
    [NotFound] the framework turns [InvalidPage] into. *)
Definition Paginator_page (per_page number : nat) (rows : list A) : result (Page.t A) :=
  let count := List.length rows in
  if (number <? 1)%nat then Raise (mkExn NotFound "Invalid page.")
  else if (num_pages count per_page <? number)%nat then Raise (mkExn NotFound "Invalid page.")
  else
    let bottom := ((number - 1) * per_page)%nat in
    let top := if (count <=? bottom + per_page)%nat then count else (bottom + per_page)%nat in
    Ok (Page.mk (slice bottom top rows) number count per_page).

(** [self.paginate_queryset(queryset)] of a generic view: [None] when the
    view has no paginator or the paginator has no page size, the page
    otherwise. *)
Definition paginate_queryset (settings : api_settings.t) (request : Request.t)
    (queryset : list A) : result (option (Page.t A)) :=
  if negb (api_settings.DEFAULT_PAGINATION_CLASS settings) then Ok None
  else
    match api_settings.PAGE_SIZE settings with
    | None => Ok None
    | Some O => Ok None
    | Some page_size =>
        page <- Paginator_page page_size (Request.page request) queryset ;;
        Ok (Some page)
    end.

(** [get_next_link] and [get_previous_link] *)
Definition get_next_link (request : Request.t) (page : Page.t A) : json :=
  if (Page.number page <? num_pages (Page.count page) (Page.per_page page))%nat
  then JStr (Request.page_link request (Page.number page + 1)%nat)
  else JNull.

Definition get_previous_link (request : Request.t) (page : Page.t A) : json :=
  if (1 <? Page.number page)%nat
  then JStr (Request.page_link request (Page.number page - 1)%nat)
  else JNull.

(** [self.get_paginated_response(data)]: the pagination envelope. *)
Definition get_paginated_response (request : Request.t) (page : Page.t A)
    (serialized : json) : Response :=
  mkResponse
    (JDict [("count", JInt (Z.of_nat (Page.count page)));
            ("next", get_next_link request page);
            ("previous", get_previous_link request page);
            ("results", serialized)])
    status.HTTP_200_OK.

(** [self.get_serializer(rows, many=True).data] *)
Definition serializer_data (to_representation : A -> json) (rows : list A) : json :=
  JList (map to_representation rows).

(** [ListModelMixin.list] on the view's query set. *)
Definition ListModelMixin_list (settings : api_settings.t)
    (to_representation : A -> json) (queryset : list A) (request : Request.t)
  : result Response :=
  page <- paginate_queryset settings request queryset ;;
  match page with
  | Some page =>
      Ok (get_paginated_response request page
            (serializer_data to_representation (Page.object_list page)))
  | None =>
      Ok (mkResponse (serializer_data to_representation queryset) status.HTTP_200_OK)
  end.

End Pagination.

(** The run of rows that makes page [number] when [per_page] rows go on
    a page. *)
Definition page_rows {A : Type} (per_page : nat) (rows : list A) (number : nat)
  : list A :=
  firstn per_page (skipn ((number - 1) * per_page) rows).

(** The keys of a response body, in order, when it is an object. *)
Definition keys (body : json) : option (list string) :=
  match body with
  | JDict items => Some (map fst items)
  | _ => None
  end.

(** Whether a body is the pagination envelope. *)
Definition is_envelope (body : json) : bool :=
  match keys body with
  | Some [k1; k2; k3; k4] =>
      String.eqb k1 "count" && String.eqb k2 "next"
      && String.eqb k3 "previous" && String.eqb k4 "results"
  | _ => false
  end.

(** ** Authentication and dispatch *)

(** The request as it arrives: the credentials it carries, if any, and
    what becomes [Request.data], [Request.page], ... once the view has
    wrapped it. *)
Module HttpRequest.
Record t : Type := mk
  { authorization : option string; body : dict; page : nat;
    page_link : nat -> string; now : Z }.
End HttpRequest.

(** An authentication class: [authenticate(request)] returns a user,
    returns [None] when the request carries nothing for it, or raises
    [AuthenticationFailed] on credentials it rejects. *)
Definition authenticator : Type := HttpRequest.t -> result (option user).

(** [Request._authenticate]: the first authenticator that answers sets
    [request.user]; with none, the user is [AnonymousUser].  The flag is
    [request.successful_authenticator is not None]. *)
Fixpoint authenticate (authenticators : list authenticator) (http : HttpRequest.t)
  : result (user * bool) :=
  match authenticators with
  | [] => Ok (AnonymousUser, false)
  | authenticator :: others =>
      answer <- authenticator http ;;
      match answer with
      | Some u => Ok (u, true)
      | None => authenticate others http
      end
  end.

(** [check_permissions], with the exception [permission_denied] picks. *)
Definition check_permissions (authenticators : list authenticator)
    (successful_authenticator : bool) (permissions : list permission) (u : user)
  : result unit :=
  if forallb (fun p => has_permission p u) permissions then Ok tt
  else if negb (Nat.eqb (List.length authenticators) 0) && negb successful_authenticator
       then Raise (mkExn NotAuthenticated "Authentication credentials were not provided.")
       else Raise (mkExn PermissionDenied "You do not have permission to perform this action.").

(** [APIView.initial]: authentication, then the permission check; the
    handler receives the wrapped request. *)
Definition initial (authenticators : list authenticator)
    (permissions : list permission) (http : HttpRequest.t) : result Request.t :=
  auth <- authenticate authenticators http ;;
  _ <- check_permissions authenticators (snd auth) permissions (fst auth) ;;
  Ok (Request.mk (fst auth) (HttpRequest.body http) (HttpRequest.page http)
        (HttpRequest.page_link http) (HttpRequest.now http)).

(** [APIView.dispatch]: whatever [initial] or the handler raises goes to
    the view's [handle_exception].  The store returned with the answer is
    the one before the request: that is what the database holds when the
    raise comes before any write (authentication, permissions,
    validation, an insert the database refuses).  The views open no
    transaction, so a handler that wrote and then raised would leave its
    write behind; the one such path, [RegisterAPIView.create] failing to
    read back the user it has just saved, is not followed further. *)
Definition dispatch {S : Type} (handle_exception : exn -> result Response)
    (store : S) (attempt : result (Response * S)) : result (Response * S) :=
  match attempt with
  | Ok out => Ok out
  | Raise exc =>
      response <- handle_exception exc ;;
      Ok (response, store)
  end.

(** An authentication class that reads a token from the credentials:
    none given is no answer, a known token is its user, any other is
    rejected. *)
Definition token_authentication (tokens : list (string * user)) : authenticator :=
  fun http =>
    match HttpRequest.authorization http with
    | None => Ok None
    | Some token =>
        match find (fun entry => String.eqb (fst entry) token) tokens with
        | Some entry => Ok (Some (snd entry))
        | None => Raise (mkExn AuthenticationFailed "Given token not valid")
        end
    end.

(** [body.get(k)] on a response body. *)
Definition json_get (k : string) (body : json) : option json :=
  match body with
  | JDict items =>
      match find (fun item => String.eqb (fst item) k) items with
      | Some item => Some (snd item)
      | None => None
      end
  | _ => None
  end.

(** ** RegisterAPIView *)

Module RegisterAPIView.
Section View.

(** [UserSerializer], the user manager and the token issuer are not
    among the sources: validation sees the stored users and the whole
    wrapped request (a serializer has it in its context), creation
    builds the new row or raises, and a refresh token has a string form
    and an access token. *)
Variable UserSerializer_is_valid : list UserRow.t -> Request.t -> result dict.
Variable User_objects_create : list UserRow.t -> dict -> result UserRow.t.
Variable UserSerializer_data : UserRow.t -> list (string * json).
Variable RefreshToken_for_user : UserRow.t -> string * string.
Variable APIView_handle_exception : exn -> result Response.

Definition permission_classes : list permission := [AllowAny].
Definition authentication_classes : list authenticator := [].

(** [CreateModelMixin.create]: validate, save, answer 201 with the
    serializer's data. *)
Definition super_create (users : list UserRow.t) (request : Request.t)
  : result (Response * list UserRow.t) :=
  validated_data <- UserSerializer_is_valid users request ;;
  row <- User_objects_create users validated_data ;;
  Ok (mkResponse (JDict (UserSerializer_data row)) status.HTTP_201_CREATED,
      (users ++ [row])%list).

(** [User.objects.get(id=...)] *)
Definition User_objects_get (users : list UserRow.t) (id : option json)
  : result UserRow.t :=
  match id with
  | Some (JInt pk) =>
      match find (fun row => UserRow.id row =? pk) users with
      | Some row => Ok row
      | None => Raise (mkExn DoesNotExist "User matching query does not exist.")
      end
  | _ => Raise (mkExn DoesNotExist "User matching query does not exist.")
  end.

Definition create (users : list UserRow.t) (request : Request.t)
  : result (Response * list UserRow.t) :=
  out <- super_create users request ;;
  let response := fst out in
  user <- User_objects_get (snd out) (json_get "id" (data response)) ;;
  let refresh := RefreshToken_for_user user in
  Ok (mkResponse
        (JDict [("status", JInt status.HTTP_201_CREATED);
                ("message", JStr "User registered successfully");
                ("user", data response);
                ("refresh", JStr (fst refresh));
                ("access", JStr (snd refresh))])
        status.HTTP_201_CREATED,
      snd out).

(** A [POST] to the registration endpoint, from the raw request to the
    response and the stored users. *)
Definition post (users : list UserRow.t) (http : HttpRequest.t)
  : result (Response * list UserRow.t) :=
  dispatch APIView_handle_exception users
    (request <- initial authentication_classes permission_classes http ;;
     create users request).

End View.
End RegisterAPIView.

(** ** PoolViewSet *)

Module PoolViewSet.

Definition get_queryset (pools : list Pool.t) (ratings : list Rating.t)
  : list AnnotatedPool.t :=
  order_by_desc AnnotatedPool.created_at (annotate_average_value pools ratings).

Definition get_permissions (action : string) : list permission :=
  let permission_classes :=
    if existsb (String.eqb action) ["create"; "update"; "partial_update"; "destroy"]
    then [IsAdminUser]
    else [AllowAny] in
  instances permission_classes.

Definition perform_create (request : Request.t) (serializer : Serializer.t) : Serializer.t :=
  save serializer [("created_by", VUser (Request.user request))].

Definition perform_update (request : Request.t) (serializer : Serializer.t) : Serializer.t :=
  save serializer [("updated_by", VUser (Request.user request));
                   ("updated_at", VTime (Request.now request))].

(** The inherited [list] action. *)
Definition list_action (settings : api_settings.t)
    (PoolSerializer : AnnotatedPool.t -> json)
    (pools : list Pool.t) (ratings : list Rating.t) (request : Request.t)
  : result Response :=
  ListModelMixin_list settings PoolSerializer (get_queryset pools ratings) request.

End PoolViewSet.

(** ** BookingViewSet *)

Module BookingViewSet.
Section View.

(** The project settings, [BookingSerializer.to_representation] and the
    [handle_exception] that [APIView] provides are not part of the view. *)
Variable settings : api_settings.t.
Variable BookingSerializer : Booking.t -> json.
Variable super_handle_exception : exn -> result Response.

Definition queryset (bookings : list Booking.t) : list Booking.t :=
  order_by_desc Booking.created_at bookings.

Definition get_permissions (action : string) : list permission :=
  let permission_classes :=
    if String.eqb action "list" then [IsAdminUser]
    else if String.eqb action "create" then [IsAuthenticated]
    else [IsOwner] in
  instances permission_classes.

(** The class has no [perform_create] of its own. *)
Definition perform_create (request : Request.t) (serializer : Serializer.t) : Serializer.t :=
  CreateModelMixin_perform_create serializer.

Definition perform_update (request : Request.t) (serializer : Serializer.t) : Serializer.t :=
  save serializer [("updated_by", VUser (Request.user request));
                   ("updated_at", VTime (Request.now request))].

Definition handle_exception (exc : exn) : result Response :=
  if isinstance_IntegrityError exc then
    let error := "You have already booked this pool." ++
                 "Request an update if required" in
    let error := JDict [("Integrity error", JStr error)] in
    Ok (mkResponse error status.HTTP_400_BAD_REQUEST)
  else super_handle_exception exc.

Definition recent_bookings (bookings : list Booking.t) (request : Request.t)
  : result Response :=
  if type_is_AnonymousUser (Request.user request) then
    Ok (mkResponse (JDict [("detail", JStr "User not known")])
          status.HTTP_401_UNAUTHORIZED)
  else
    let recent_bookings :=
      order_by_desc Booking.created_at
        (filter (fun b => user_is (Request.user request) (Booking.user b)) bookings) in
    page <- paginate_queryset settings request recent_bookings ;;
    match page with
    | Some page =>
        let serializer := serializer_data BookingSerializer (Page.object_list page) in
        Ok (get_paginated_response request page serializer)
    | None =>
        let serializer := serializer_data BookingSerializer recent_bookings in
        Ok (mkResponse serializer status.HTTP_200_OK)
    end.

(** The inherited [list] action. *)
Definition list_action (bookings : list Booking.t) (request : Request.t)
  : result Response :=
  ListModelMixin_list settings BookingSerializer (queryset bookings) request.

End View.
End BookingViewSet.

(** ** UserViewSet *)

Module UserViewSet.

Definition queryset (users : list UserRow.t) : list UserRow.t := users.

Definition get_permissions (action : string) : list permission :=
  let permission_classes :=
    if String.eqb action "list" then [IsAdminUser] else [AllowAny] in
  instances permission_classes.

End UserViewSet.

(** ** RatingViewSet *)

Module RatingViewSet.
Section View.

Variable settings : api_settings.t.
Variable RatingSerializer : Rating.t -> json.
Variable super_handle_exception : exn -> result Response.

Definition queryset (ratings : list Rating.t) : list Rating.t :=
  order_by_desc Rating.created_at ratings.

(** The local [permission_classes] after the first [if]: bound for
    ['create'] only. *)
Definition after_create_check (action : string) : option (list permission) :=
  if String.eqb action "create" then Some [IsAuthenticated] else None.

(** The local after the second statement, an [if]/[else] that assigns on
    both branches whatever the first statement left. *)
Definition after_list_check (action : string) (before : option (list permission))
  : list permission :=
  if String.eqb action "list" then [IsAdminUser] else [IsOwner].

Definition get_permissions (action : string) : list permission :=
  let permission_classes := after_create_check action in
  let permission_classes := after_list_check action permission_classes in
  instances permission_classes.

Definition perform_create (request : Request.t) (serializer : Serializer.t) : Serializer.t :=
  save serializer [("user", VUser (Request.user request))].

Definition user_ratings (ratings : list Rating.t) (request : Request.t)
  : result Response :=
  if negb (truthy (Request.user request)) || type_is_AnonymousUser (Request.user request) then
    Ok (mkResponse (JDict [("detail", JStr "User not known")])
          status.HTTP_401_UNAUTHORIZED)
  else
    let user_ratings :=
      order_by_desc Rating.created_at
        (filter (fun r => user_is (Request.user request) (Rating.user r)) ratings) in
    page <- paginate_queryset settings request user_ratings ;;
    match page with
    | Some page =>
        let serializer := serializer_data RatingSerializer (Page.object_list page) in
        Ok (mkResponse serializer status.HTTP_200_OK)
    | None =>
        let serializer := serializer_data RatingSerializer user_ratings in
        Ok (mkResponse serializer status.HTTP_200_OK)
    end.

Definition handle_exception (exc : exn) : result Response :=
  if isinstance_IntegrityError exc then
    let error := "Already rated! request update to make changes" in
    let error := JDict [("Integrity Error", JStr error)] in
    Ok (mkResponse error status.HTTP_400_BAD_REQUEST)
  else super_handle_exception exc.

(** The inherited [list] action. *)
Definition list_action (ratings : list Rating.t) (request : Request.t)
  : result Response :=
  ListModelMixin_list settings RatingSerializer (queryset ratings) request.

End View.
End RatingViewSet.

(** ** FileUploadView *)

Module FileUploadView.

Definition queryset (uploads : list FileUpload.t) : list FileUpload.t :=
  order_by_desc FileUpload.uploaded_at uploads.

Definition permission_classes : list permission := [IsAdminUser].

(** The inherited [list] action. *)
Definition list_action (settings : api_settings.t)
    (FileUploadSerializer : FileUpload.t -> json)
    (uploads : list FileUpload.t) (request : Request.t) : result Response :=
  ListModelMixin_list settings FileUploadSerializer (queryset uploads) request.

End FileUploadView.

(** ** What the specification calls the arithmetic mean *)

(** The ratings associated with a pool, following the specification's
    words. *)
Definition ratings_of (p : Pool.t) (ratings : list Rating.t) : list Rating.t :=
  filter (fun r => Rating.pool r =? Pool.id p) ratings.

(** The arithmetic mean of integer values as a float, written without
    the helpers of the query: the values added up from the first on, over
    how many they are, and null when there is none. *)
Definition arithmetic_mean (values : list Z) : option PrimFloat.float :=
  match values with
  | [] => None
  | _ :: _ =>
      Some (PrimFloat.div (float_of_Z (fold_left Z.add values 0))
              (float_of_Z (Z.of_nat (List.length values))))
  end.

(** Modelled from the spec: the [averageRating] a pool is shown with.
    [restful/models.py] and [restful/serializers.py], which expose it,
    are not among the sources; section 3 has it "computed by aggregating
    related Ratings; not stored", which in the view is the annotation
    [_average_value] of the query set. *)
Definition averageRating (row : AnnotatedPool.t) : option PrimFloat.float :=
  AnnotatedPool._average_value row.

(** What a listing shows: the serialized [rows], bare or as the results
    of a pagination envelope. *)
Definition shows {A : Type} (to_representation : A -> json) (response : Response)
    (rows : list A) : Prop :=
  data response = serializer_data to_representation rows
  \/ (is_envelope (data response) = true
      /\ json_get "results" (data response)
         = Some (serializer_data to_representation rows)).

(** * Properties *)

(** ** Ordering *)

Section Ordering.
Context {A : Type}.
Variable key : A -> Z.

Lemma insert_desc_Permutation (x : A) (rows : list A) :
  Permutation (insert_desc key x rows) (x :: rows).
Proof.
  induction rows as [|y rest IH]; simpl.
  - apply Permutation_refl.
  - destruct (key y <=? key x).
    + apply Permutation_refl.
    + eapply perm_trans; [apply perm_skip, IH | apply perm_swap].
Qed.

Lemma order_by_desc_Permutation (rows : list A) :
  Permutation (order_by_desc key rows) rows.
Proof.
  induction rows as [|x rest IH]; simpl.
  - constructor.
  - eapply perm_trans; [apply insert_desc_Permutation | now apply perm_skip].
Qed.

Lemma order_by_desc_In (x : A) (rows : list A) :
  In x (order_by_desc key rows) <-> In x rows.
Proof.
  split; apply Permutation_in;
    [|apply Permutation_sym]; apply order_by_desc_Permutation.
Qed.

Lemma insert_desc_sorted (x : A) (rows : list A) :
  StronglySorted (newest_first key) rows ->
  StronglySorted (newest_first key) (insert_desc key x rows).
Proof.
  induction rows as [|y rest IH]; intros Hs; simpl.
  - constructor; constructor.
  - inversion Hs as [|? ? Hrest Hall]; subst.
    destruct (key y <=? key x) eqn:E.
    + apply Z.leb_le in E. constructor; [assumption|].
      constructor; [exact E|].
      rewrite Forall_forall in *. intros z Hz.
      unfold newest_first in *. specialize (Hall z Hz). lia.
    + apply Z.leb_gt in E. constructor; [now apply IH|].
      rewrite Forall_forall in *. intros z Hz.
      apply (Permutation_in _ (insert_desc_Permutation x rest)) in Hz.
      destruct Hz as [<-|Hz]; [unfold newest_first; lia | now apply Hall].
Qed.

Lemma order_by_desc_sorted (rows : list A) :
  StronglySorted (newest_first key) (order_by_desc key rows).
Proof.
  induction rows as [|x rest IH]; simpl.
  - constructor.
  - now apply insert_desc_sorted.
Qed.

Lemma In_firstn (n : nat) (rows : list A) (x : A) :
  In x (firstn n rows) -> In x rows.
Proof.
  intros Hx. rewrite <- (firstn_skipn n rows). apply in_or_app. now left.
Qed.

Lemma In_skipn (n : nat) (rows : list A) (x : A) :
  In x (skipn n rows) -> In x rows.
Proof.
  intros Hx. rewrite <- (firstn_skipn n rows). apply in_or_app. now right.
Qed.

Lemma skipn_sorted (n : nat) (rows : list A) :
  StronglySorted (newest_first key) rows ->
  StronglySorted (newest_first key) (skipn n rows).
Proof.
  revert rows; induction n as [|n IH]; intros [|x rest] Hs; simpl; try assumption.
  inversion Hs; subst. now apply IH.
Qed.

Lemma firstn_sorted (n : nat) (rows : list A) :
  StronglySorted (newest_first key) rows ->
  StronglySorted (newest_first key) (firstn n rows).
Proof.
  revert rows; induction n as [|n IH]; intros [|x rest] Hs; simpl; try constructor.
  - inversion Hs; subst. now apply IH.
  - inversion Hs as [|? ? _ Hall]; subst.
    rewrite Forall_forall in *. intros z Hz. apply Hall.
    now apply In_firstn in Hz.
Qed.

Lemma slice_sorted (bottom top : nat) (rows : list A) :
  StronglySorted (newest_first key) rows ->
  StronglySorted (newest_first key) (slice bottom top rows).
Proof. intros Hs. unfold slice. now apply firstn_sorted, skipn_sorted. Qed.

Lemma slice_In (bottom top : nat) (rows : list A) (x : A) :
  In x (slice bottom top rows) -> In x rows.
Proof.
  unfold slice. intros Hx. now apply In_firstn, In_skipn in Hx.
Qed.

End Ordering.

(** ** Pagination *)

Section Paging.
Context {A : Type}.
Variable settings : api_settings.t.
Variable request : Request.t.

(** A page is a run of consecutive rows of the query set, and the only
    exception the paginator raises is [NotFound]. *)
Lemma paginate_queryset_cases (queryset : list A) :
  match paginate_queryset settings request queryset with
  | Ok None => True
  | Ok (Some page) =>
      exists bottom top, Page.object_list page = slice bottom top queryset
  | Raise exc => exc_type exc = NotFound
  end.
Proof.
  unfold paginate_queryset.
  destruct (api_settings.DEFAULT_PAGINATION_CLASS settings); simpl; [|exact I].
  destruct (api_settings.PAGE_SIZE settings) as [[|page_size]|]; try exact I.
  unfold Paginator_page.
  destruct (Request.page request <? 1)%nat; simpl; [reflexivity|].
  match goal with
  | |- context [(?pages <? Request.page request)%nat] =>
      destruct (pages <? Request.page request)%nat; simpl; [reflexivity|]
  end.
  eexists _, _. reflexivity.
Qed.



End Paging.


(** ** Owner-scoped listings *)

(** The rows of a table that belong to the user with primary key [pk],
    newest first. *)
Lemma own_rows_newest_first {A : Type} (created_at owner : A -> Z) (pk : Z)
    (table : list A) :
  let mine := order_by_desc created_at (filter (fun row => owner row =? pk) table) in
  (forall row, In row mine <-> In row table /\ owner row = pk)
  /\ StronglySorted (newest_first created_at) mine
  /\ Permutation mine (filter (fun row => owner row =? pk) table).
Proof.
  simpl. split; [|split].
  - intros row. rewrite order_by_desc_In, filter_In, Z.eqb_eq. tauto.
  - apply order_by_desc_sorted.
  - apply order_by_desc_Permutation.
Qed.

(** C6, as amended: [recent_bookings] answers 401 to an anonymous caller.
    For an authenticated caller it answers from the sequence of exactly
    the bookings whose user is the caller, in descending creation time:
    the whole sequence when the paginator cuts no page, the pagination
    envelope around the requested page of that sequence when it does, and
    the paginator's [NotFound] when that page does not exist. *)
Theorem recent_bookings_of_caller :
  forall (settings : api_settings.t) (BookingSerializer : Booking.t -> json)
         (bookings : list Booking.t) (request : Request.t),
    match Request.user request with
    | AnonymousUser =>
        BookingViewSet.recent_bookings settings BookingSerializer bookings request
        = Ok (mkResponse (JDict [("detail", JStr "User not known")]) 401)
    | User pk _ =>
        let mine :=
          order_by_desc Booking.created_at
            (filter (fun b => Booking.user b =? pk) bookings) in
        (forall b, In b mine <-> In b bookings /\ Booking.user b = pk)
        /\ StronglySorted (newest_first Booking.created_at) mine
        /\ Permutation mine (filter (fun b => Booking.user b =? pk) bookings)
        /\ match paginate_queryset settings request mine with
           | Ok None =>
               BookingViewSet.recent_bookings settings BookingSerializer bookings request
               = Ok (mkResponse (serializer_data BookingSerializer mine) 200)
           | Ok (Some page) =>
               BookingViewSet.recent_bookings settings BookingSerializer bookings request
               = Ok (get_paginated_response request page
                       (serializer_data BookingSerializer (Page.object_list page)))
               /\ exists bottom top, Page.object_list page = slice bottom top mine
           | Raise exc =>
               BookingViewSet.recent_bookings settings BookingSerializer bookings request
               = Raise exc
               /\ exc_type exc = NotFound
           end
    end.
Proof.
  intros settings S bookings request.
  unfold BookingViewSet.recent_bookings.
  destruct (Request.user request) as [|pk staff] eqn:Hu; simpl; [reflexivity|].
  destruct (own_rows_newest_first Booking.created_at Booking.user pk bookings)
    as (Hin & Hsorted & Hperm).
  split; [exact Hin|]. split; [exact Hsorted|]. split; [exact Hperm|].
  pose proof (paginate_queryset_cases settings request
                (order_by_desc Booking.created_at
                   (filter (fun b => Booking.user b =? pk) bookings))) as Hp.
  destruct (paginate_queryset settings request _) as [[page|]|exc]; simpl.
  - split; [reflexivity | exact Hp].
  - reflexivity.
  - split; [reflexivity | exact Hp].
Qed.

(** C6 as stated fails where a page is cut: with one booking per page, a
    caller who owns two bookings is shown the newer one only. *)
Lemma recent_bookings_page_is_not_all :
  let settings := api_settings.mk true (Some 1%nat) in
  let request := Request.mk (User 1 false) [] 1 (fun _ => "/bookings/recent_bookings/") 0 in
  let older := Booking.mk "1-lagoon" 1 7 10 None None in
  let newer := Booking.mk "1-reef" 1 8 20 None None in
  let BookingSerializer := fun b => JStr (Booking.slug b) in
  is_authenticated (Request.user request) = true
  /\ filter (fun b => user_is (Request.user request) (Booking.user b)) [older; newer]
     = [older; newer]
  /\ BookingViewSet.recent_bookings settings BookingSerializer [older; newer] request
     = Ok (mkResponse
             (JDict [("count", JInt 2);
                     ("next", JStr "/bookings/recent_bookings/");
                     ("previous", JNull);
                     ("results", JList [JStr "1-reef"])])
             200)
  /\ ~ shows BookingSerializer
         (mkResponse
            (JDict [("count", JInt 2);
                    ("next", JStr "/bookings/recent_bookings/");
                    ("previous", JNull);
                    ("results", JList [JStr "1-reef"])])
            200)
         [newer; older].
Proof.
  repeat split.
  intros [H|[_ H]]; discriminate H.
Qed.

(** [recent_bookings] wraps a page in the pagination envelope. *)
Lemma recent_bookings_page_has_envelope :
  forall (settings : api_settings.t) (BookingSerializer : Booking.t -> json)
         (bookings : list Booking.t) (pk : Z) (staff : bool) (body : dict)
         (number : nat) (link : nat -> string) (now : Z),
    let request := Request.mk (User pk staff) body number link now in
    let mine :=
      order_by_desc Booking.created_at
        (filter (fun b => Booking.user b =? pk) bookings) in
    match paginate_queryset settings request mine with
    | Ok (Some page) =>
        exists response,
          BookingViewSet.recent_bookings settings BookingSerializer bookings request
          = Ok response
          /\ keys (data response) = Some ["count"; "next"; "previous"; "results"]
          /\ is_envelope (data response) = true
    | _ => True
    end.
Proof.
  intros. unfold BookingViewSet.recent_bookings. simpl.
  fold mine. destruct (paginate_queryset settings request mine) as [[page|]|exc];
    simpl; try exact I.
  eexists. repeat split.
Qed.

(** C4: where [recent_bookings] wraps the page, [user_ratings] does not:
    for an authenticated caller and a page cut by the paginator its
    response is the bare list of the page's rows, with no [count], [next],
    [previous] or [results]. *)
Theorem user_ratings_page_is_bare :
  forall (settings : api_settings.t) (RatingSerializer : Rating.t -> json)
         (ratings : list Rating.t) (pk : Z) (staff : bool) (body : dict)
         (number : nat) (link : nat -> string) (now : Z),
    let request := Request.mk (User pk staff) body number link now in
    let mine :=
      order_by_desc Rating.created_at
        (filter (fun r => Rating.user r =? pk) ratings) in
    match paginate_queryset settings request mine with
    | Ok (Some page) =>
        RatingViewSet.user_ratings settings RatingSerializer ratings request
        = Ok (mkResponse (JList (map RatingSerializer (Page.object_list page))) 200)
        /\ is_envelope (JList (map RatingSerializer (Page.object_list page))) = false
        /\ keys (JList (map RatingSerializer (Page.object_list page))) = None
    | Ok None =>
        RatingViewSet.user_ratings settings RatingSerializer ratings request
        = Ok (mkResponse (JList (map RatingSerializer mine)) 200)
    | Raise exc =>
        RatingViewSet.user_ratings settings RatingSerializer ratings request = Raise exc
    end.
Proof.
  intros. unfold RatingViewSet.user_ratings. simpl. fold mine.
  destruct (paginate_queryset settings request mine) as [[page|]|exc]; simpl;
    repeat split.
Qed.

(** The failing input of C4: one rating per page, a caller with two
    ratings, page 1. *)
Example user_ratings_first_page :
  let settings := api_settings.mk true (Some 1%nat) in
  let request := Request.mk (User 1 false) [] 1 (fun _ => "/ratings/user_ratings/") 0 in
  let older := Rating.mk "1-lagoon" 1 7 4 10 in
  let newer := Rating.mk "1-reef" 1 8 5 20 in
  let RatingSerializer := fun r => JStr (Rating.slug r) in
  RatingViewSet.user_ratings settings RatingSerializer [older; newer] request
  = Ok (mkResponse (JList [JStr "1-reef"]) 200).
Proof. reflexivity. Qed.

(** ** The average rating of a pool *)

Section Average.
Variable ratings : list Rating.t.

Lemma group_of_rows_of_one_pool (p q : Pool.t) (rows : list (Pool.t * option Rating.t)) :
  Forall (fun row => fst row = q) rows ->
  group_of p rows = if Pool.id q =? Pool.id p then rows else [].
Proof.
  unfold group_of. induction 1 as [|row rest Hrow _ IH]; simpl.
  - now destruct (Pool.id q =? Pool.id p).
  - rewrite Hrow, IH. now destruct (Pool.id q =? Pool.id p).
Qed.

Lemma join_rows_of_one_pool (q : Pool.t) :
  Forall (fun row => fst row = q) (join_rows q ratings).
Proof.
  unfold join_rows.
  destruct (filter _ ratings) as [|r rated].
  - now repeat constructor.
  - apply Forall_forall. intros row Hrow.
    apply in_map_iff in Hrow. now destruct Hrow as (r' & <- & _).
Qed.

(** With the primary key unique, the group of a pool is its own joined
    rows. *)
Lemma group_of_left_outer_join (pools : list Pool.t) (p : Pool.t) :
  NoDup (map Pool.id pools) -> In p pools ->
  group_of p (left_outer_join pools ratings) = join_rows p ratings.
Proof.
  unfold left_outer_join.
  induction pools as [|q rest IH]; intros Hnodup Hin; [contradiction|].
  simpl in *. inversion Hnodup as [|? ? Hfresh Hrest]; subst.
  unfold group_of in *. rewrite filter_app.
  fold (group_of p (join_rows q ratings)).
  rewrite (group_of_rows_of_one_pool p q) by apply join_rows_of_one_pool.
  destruct (Pool.id q =? Pool.id p) eqn:E.
  - apply Z.eqb_eq in E.
    assert (q = p) as ->.
    { destruct Hin as [Hq|Hp]; [exact Hq|]. exfalso. apply Hfresh.
      rewrite E. now apply in_map. }
    rewrite <- app_nil_r. f_equal.
    clear IH Hin Hnodup Hrest.
    induction rest as [|q' rest IH]; [reflexivity|]. simpl.
    rewrite filter_app. fold (group_of p (join_rows q' ratings)).
    rewrite (group_of_rows_of_one_pool p q') by apply join_rows_of_one_pool.
    destruct (Pool.id q' =? Pool.id p) eqn:E'.
    + exfalso. apply Hfresh. left. now apply Z.eqb_eq.
    + simpl. apply IH. intros Hp. apply Hfresh. now right.
  - simpl. apply IH; [assumption|].
    destruct Hin as [->|Hp]; [|assumption].
    rewrite Z.eqb_refl in E. discriminate.
Qed.

Lemma non_null_join_rows (p : Pool.t) :
  non_null (map (fun row => option_map Rating.value (snd row)) (join_rows p ratings))
  = map Rating.value (ratings_of p ratings).
Proof.
  unfold join_rows, ratings_of.
  destruct (filter _ ratings) as [|r rated]; [reflexivity|].
  generalize (r :: rated) as rows. intros rows.
  induction rows as [|r' rows IH]; simpl; [reflexivity | now rewrite IH].
Qed.

Lemma Zsum_from_the_first (values : list Z) :
  Zsum values = fold_left Z.add values 0.
Proof.
  unfold Zsum. symmetry. apply fold_symmetric.
  - intros x y z. apply Z.add_assoc.
  - intros y. apply Z.add_comm.
Qed.

Lemma Avg_is_arithmetic_mean (column : list (option Z)) :
  Avg column = arithmetic_mean (non_null column).
Proof.
  unfold Avg, arithmetic_mean.
  destruct (non_null column) as [|v vs]; [reflexivity|].
  now rewrite Zsum_from_the_first.
Qed.

End Average.

(** C8: with pools told apart by their primary key, every pool is in the
    pool query set, and the [averageRating] of each row there is the
    arithmetic mean of the values of the ratings associated with its
    pool, as a float; it is null, and no error, exactly when the pool has
    no rating. *)
Theorem pool_average_is_mean_of_its_ratings :
  forall (pools : list Pool.t) (ratings : list Rating.t),
    NoDup (map Pool.id pools) ->
    (forall p, In p pools ->
       exists row, In row (PoolViewSet.get_queryset pools ratings)
                   /\ AnnotatedPool.pool row = p)
    /\ (forall row, In row (PoolViewSet.get_queryset pools ratings) ->
          In (AnnotatedPool.pool row) pools
          /\ averageRating row
             = arithmetic_mean
                 (map Rating.value (ratings_of (AnnotatedPool.pool row) ratings))
          /\ (ratings_of (AnnotatedPool.pool row) ratings = [] <->
              averageRating row = None)).
Proof.
  intros pools ratings Hnodup.
  assert (forall row, In row (PoolViewSet.get_queryset pools ratings) <->
                      exists p, In p pools /\
                        row = AnnotatedPool.mk p
                                (arithmetic_mean (map Rating.value (ratings_of p ratings))))
    as Hrows.
  { intros row. unfold PoolViewSet.get_queryset.
    rewrite order_by_desc_In. unfold annotate_average_value.
    rewrite in_map_iff. split.
    - intros (p & <- & Hp). exists p. split; [assumption|]. f_equal.
      rewrite (group_of_left_outer_join ratings pools p Hnodup Hp).
      now rewrite Avg_is_arithmetic_mean, non_null_join_rows.
    - intros (p & Hp & ->). exists p. split; [|assumption]. f_equal.
      rewrite (group_of_left_outer_join ratings pools p Hnodup Hp).
      now rewrite Avg_is_arithmetic_mean, non_null_join_rows. }
  split.
  - intros p Hp. eexists. split; [apply Hrows; exists p; split; [exact Hp|reflexivity]|].
    reflexivity.
  - intros row Hrow. apply Hrows in Hrow. destruct Hrow as (p & Hp & ->).
    unfold averageRating. simpl.
    split; [assumption|]. split; [reflexivity|].
    destruct (ratings_of p ratings) as [|r rated]; simpl; split;
      (reflexivity || discriminate).
Qed.

Section AverageWitness.
Import PrimFloat.

Lemma pool_average_is_mean_of_its_ratings_witness :
  let reef := Pool.mk 1 "reef" "Reef" 9 100 None None in
  let lagoon := Pool.mk 2 "lagoon" "Lagoon" 9 200 None None in
  let ratings :=
    [Rating.mk "3-reef" 3 1 4 110; Rating.mk "4-reef" 4 1 5 120;
     Rating.mk "5-reef" 5 1 5 130] in
  NoDup (map Pool.id [reef; lagoon])
  /\ map averageRating (PoolViewSet.get_queryset [reef; lagoon] ratings)
     = [None; Some 0x1.2aaaaaaaaaaabp+2%float]
  /\ (forall row, In row (PoolViewSet.get_queryset [reef; lagoon] ratings) ->
        averageRating row
        = arithmetic_mean
            (map Rating.value (ratings_of (AnnotatedPool.pool row) ratings))).
Proof.
  assert (NoDup (map Pool.id [Pool.mk 1 "reef" "Reef" 9 100 None None;
                              Pool.mk 2 "lagoon" "Lagoon" 9 200 None None])) as Hnodup.
  { repeat constructor; simpl; intuition discriminate. }
  split; [exact Hnodup|]. split; [reflexivity|].
  intros row Hrow.
  apply (pool_average_is_mean_of_its_ratings _ _ Hnodup). exact Hrow.
Defined.

End AverageWitness.

(** ** Who a created record belongs to *)

Lemma dict_get_set (k : string) (v : value) (d : dict) :
  dict_get k (dict_set k v d) = Some v.
Proof.
  induction d as [|[k' v'] rest IH]; simpl.
  - now rewrite String.eqb_refl.
  - destruct (String.eqb k' k) eqn:E; simpl; rewrite E; [reflexivity | exact IH].
Qed.

Lemma dict_get_set_other (k k0 : string) (v : value) (d : dict) :
  k0 <> k -> dict_get k (dict_set k0 v d) = dict_get k d.
Proof.
  intros Hk. induction d as [|[k' v'] rest IH]; simpl.
  - destruct (String.eqb k0 k) eqn:E; [|reflexivity].
    apply String.eqb_eq in E. contradiction.
  - destruct (String.eqb k' k0) eqn:E0; simpl.
    + apply String.eqb_eq in E0. subst k'.
      destruct (String.eqb k0 k) eqn:E; [|reflexivity].
      apply String.eqb_eq in E. contradiction.
    + now rewrite IH.
Qed.




(** ** Conflicts *)

(** C2: on an integrity error the booking view set answers 400 with one
    key, ["Integrity error"], whatever text the storage layer gave, and a
    request whose handler raised it is answered that way with the store
    unchanged; but the two halves of the message are joined without a
    space, so the body is not the one the specification quotes. *)
Theorem booking_conflict_message_lacks_space :
  forall (super_handle_exception : exn -> result Response) (args : string),
    BookingViewSet.handle_exception super_handle_exception (mkExn IntegrityError args)
    = Ok (mkResponse
            (JDict [("Integrity error",
                     JStr "You have already booked this pool.Request an update if required")])
            400)
    /\ (forall (S : Type) (store : S),
          dispatch (BookingViewSet.handle_exception super_handle_exception) store
            (Raise (mkExn IntegrityError args))
          = Ok (mkResponse
                  (JDict [("Integrity error",
                           JStr "You have already booked this pool.Request an update if required")])
                  400,
                store))
    /\ "You have already booked this pool.Request an update if required"
       <> "You have already booked this pool. Request an update if required".
Proof.
  intros super args. split; [reflexivity|]. split; [reflexivity|]. discriminate.
Qed.

(** A rating write that leaves a required column empty is not a second
    rating of the same pool, yet the rating view set answers it as one,
    where the generic handler would have let the exception through. *)
Lemma rating_not_null_failure_is_translated :
  let generic := fun exc : exn => @Raise Response exc in
  let exc := constraint_failed NotNullConstraint "restful_rating.value" in
  exc = mkExn IntegrityError "NOT NULL constraint failed: restful_rating.value"
  /\ exc <> constraint_failed UniqueConstraint "restful_rating.slug"
  /\ generic exc = Raise exc
  /\ RatingViewSet.handle_exception generic exc
     = Ok (mkResponse
             (JDict [("Integrity Error",
                      JStr "Already rated! request update to make changes")])
             400)
  /\ RatingViewSet.handle_exception generic exc <> generic exc.
Proof.
  cbv zeta. split; [reflexivity|]. split; [discriminate|].
  split; [reflexivity|]. split; [reflexivity|]. discriminate.
Qed.

(** C7, as amended: the rating view set tests the class of the exception
    and nothing else.  Every integrity error, the broken uniqueness of a
    second rating and equally a broken not-null, foreign-key or check
    constraint, whatever its text, is answered 400 with the body
    [{"Integrity Error": "Already rated! request update to make
    changes"}], whose key is not the booking view set's
    ["Integrity error"]; every exception that is not an integrity error is
    handed, as it is, to the generic [handle_exception]. *)
Theorem rating_conflict_translation :
  forall super_handle_exception : exn -> result Response,
    (forall (c : constraint) (target : string),
        exc_type (constraint_failed c target) = IntegrityError
        /\ RatingViewSet.handle_exception super_handle_exception
             (constraint_failed c target)
           = Ok (mkResponse
                   (JDict [("Integrity Error",
                            JStr "Already rated! request update to make changes")])
                   400))
    /\ (forall exc : exn,
        match exc_type exc with
        | IntegrityError =>
            RatingViewSet.handle_exception super_handle_exception exc
            = Ok (mkResponse
                    (JDict [("Integrity Error",
                             JStr "Already rated! request update to make changes")])
                    400)
            /\ (exists response,
                  BookingViewSet.handle_exception super_handle_exception exc = Ok response
                  /\ keys (data response) = Some ["Integrity error"])
            /\ "Integrity Error" <> "Integrity error"
        | _ =>
            RatingViewSet.handle_exception super_handle_exception exc
            = super_handle_exception exc
        end).
Proof.
  intros super. split.
  - intros c target. split; reflexivity.
  - intros exc.
    unfold RatingViewSet.handle_exception, BookingViewSet.handle_exception,
      isinstance_IntegrityError.
    destruct (exc_type exc); try reflexivity.
    split; [reflexivity|]. split; [|discriminate].
    eexists. split; reflexivity.
Qed.

(** ** Access policy *)

(** C5: the booking policy.  Listing all bookings is granted exactly to
    staff; creating to exactly the authenticated; and an action on one
    booking (retrieve, update, partial update, destroy, and any action
    that is neither ['list'] nor ['create']) exactly to the user the
    booking belongs to. *)
Theorem booking_access_policy :
  forall (u : user) (owner : Z),
    BookingViewSet.get_permissions "list" = [IsAdminUser]
    /\ granted (BookingViewSet.get_permissions "list") u None = user_is_staff u
    /\ BookingViewSet.get_permissions "create" = [IsAuthenticated]
    /\ granted (BookingViewSet.get_permissions "create") u None = is_authenticated u
    /\ (forall action,
          action <> "list" -> action <> "create" ->
          BookingViewSet.get_permissions action = [IsOwner]
          /\ (granted (BookingViewSet.get_permissions action) u (Some owner) = true
              <-> exists staff, u = User owner staff))
    /\ Forall (fun action => BookingViewSet.get_permissions action = [IsOwner])
         ["retrieve"; "update"; "partial_update"; "destroy"].
Proof.
  intros u owner.
  split; [reflexivity|]. split; [destruct u as [|pk []]; reflexivity|].
  split; [reflexivity|]. split; [destruct u; reflexivity|].
  split; [|repeat constructor].
  intros action Hlist Hcreate.
  assert (BookingViewSet.get_permissions action = [IsOwner]) as Hperm.
  { unfold BookingViewSet.get_permissions.
    destruct (String.eqb action "list") eqn:E1;
      [apply String.eqb_eq in E1; contradiction|].
    destruct (String.eqb action "create") eqn:E2;
      [apply String.eqb_eq in E2; contradiction|].
    reflexivity. }
  split; [exact Hperm|]. rewrite Hperm.
  unfold granted. simpl. rewrite andb_true_r.
  destruct u as [|pk staff]; simpl.
  - split; [discriminate | intros [staff H]; discriminate].
  - rewrite Z.eqb_eq. split.
    + intros ->. now exists staff.
    + intros [staff' H]. now inversion H.
Qed.

(** C1: for ['create'] the first [if] of [RatingViewSet.get_permissions]
    does bind the authenticated rule, the [if]/[else] that follows
    replaces whatever was bound by the owner-only rule, and that is what
    the method returns; no action is answered with the authenticated
    rule. *)
Theorem rating_create_gets_owner_rule :
  RatingViewSet.after_create_check "create" = Some [IsAuthenticated]
  /\ (forall before, RatingViewSet.after_list_check "create" before = [IsOwner])
  /\ RatingViewSet.get_permissions "create" = [IsOwner]
  /\ (forall action, RatingViewSet.get_permissions action <> [IsAuthenticated])
  /\ (forall action, RatingViewSet.get_permissions action
                     = if String.eqb action "list" then [IsAdminUser] else [IsOwner]).
Proof.
  split; [reflexivity|]. split; [reflexivity|]. split; [reflexivity|].
  split; intros action;
    unfold RatingViewSet.get_permissions, RatingViewSet.after_list_check;
    destruct (String.eqb action "list"); (discriminate || reflexivity).
Qed.

(** ** Registration *)

(** With no authentication class nothing reads the credentials: the
    handler always receives the anonymous user. *)
Lemma initial_without_authentication (permissions : list permission)
    (http : HttpRequest.t) :
  forallb (fun p => has_permission p AnonymousUser) permissions = true ->
  initial [] permissions http
  = Ok (Request.mk AnonymousUser (HttpRequest.body http) (HttpRequest.page http)
          (HttpRequest.page_link http) (HttpRequest.now http)).
Proof.
  intros Hgranted. unfold initial, check_permissions. simpl.
  now rewrite Hgranted.
Qed.

(** The same pipeline does tell credentials apart once a view has an
    authentication class: a known token, an unknown one and none at all
    lead to three different outcomes. *)
Example initial_with_authentication :
  let tokens := [("t0k3n", User 5 false)] in
  let request := fun credentials =>
    HttpRequest.mk credentials [] 1 (fun _ => "/bookings/") 0 in
  initial [token_authentication tokens] [IsAuthenticated] (request (Some "t0k3n"))
  = Ok (Request.mk (User 5 false) [] 1 (fun _ => "/bookings/") 0)
  /\ initial [token_authentication tokens] [IsAuthenticated] (request (Some "forged"))
     = Raise (mkExn AuthenticationFailed "Given token not valid")
  /\ initial [token_authentication tokens] [IsAuthenticated] (request None)
     = Raise (mkExn NotAuthenticated "Authentication credentials were not provided.").
Proof. repeat split. Qed.

(** C10: the registration view has no authentication class and the
    allow-any permission, so two requests with the same body (and the
    same stored users) have the same outcome, response and stored users
    alike, whatever credentials each carries: valid, invalid or none. *)
Theorem register_outcome_ignores_credentials :
  forall (UserSerializer_is_valid : list UserRow.t -> Request.t -> result dict)
         (User_objects_create : list UserRow.t -> dict -> result UserRow.t)
         (UserSerializer_data : UserRow.t -> list (string * json))
         (RefreshToken_for_user : UserRow.t -> string * string)
         (APIView_handle_exception : exn -> result Response)
         (users : list UserRow.t)
         (body : dict) (page : nat) (page_link : nat -> string) (now : Z)
         (credentials1 credentials2 : option string),
    RegisterAPIView.authentication_classes = []
    /\ RegisterAPIView.permission_classes = [AllowAny]
    /\ RegisterAPIView.post UserSerializer_is_valid User_objects_create
         UserSerializer_data RefreshToken_for_user APIView_handle_exception users
         (HttpRequest.mk credentials1 body page page_link now)
       = RegisterAPIView.post UserSerializer_is_valid User_objects_create
           UserSerializer_data RefreshToken_for_user APIView_handle_exception users
           (HttpRequest.mk credentials2 body page page_link now)
    /\ RegisterAPIView.post UserSerializer_is_valid User_objects_create
         UserSerializer_data RefreshToken_for_user APIView_handle_exception users
         (HttpRequest.mk credentials1 body page page_link now)
       = dispatch APIView_handle_exception users
           (RegisterAPIView.create UserSerializer_is_valid User_objects_create
              UserSerializer_data RefreshToken_for_user users
              (Request.mk AnonymousUser body page page_link now)).
Proof.
  intros. split; [reflexivity|]. split; [reflexivity|].
  unfold RegisterAPIView.post, RegisterAPIView.authentication_classes,
    RegisterAPIView.permission_classes.
  rewrite !initial_without_authentication by reflexivity.
  split; reflexivity.
Qed.

(** ** The other access policies *)

(** X1: the pool policy.  Creating, updating, partially updating and
    destroying a pool are granted exactly to staff; every other action
    (listing and retrieving among them) is granted to every caller, the
    anonymous one included, and each action is guarded by exactly one
    permission. *)
Theorem pool_access_policy :
  forall (action : string) (u : user) (target : option Z),
    (In action ["create"; "update"; "partial_update"; "destroy"] ->
     PoolViewSet.get_permissions action = [IsAdminUser]
     /\ granted (PoolViewSet.get_permissions action) u target = user_is_staff u)
    /\ (~ In action ["create"; "update"; "partial_update"; "destroy"] ->
        PoolViewSet.get_permissions action = [AllowAny]
        /\ granted (PoolViewSet.get_permissions action) u target = true
        /\ granted (PoolViewSet.get_permissions action) AnonymousUser target = true)
    /\ List.length (PoolViewSet.get_permissions action) = 1%nat.
Proof.
  intros action u target. unfold PoolViewSet.get_permissions.
  destruct (existsb (String.eqb action) ["create"; "update"; "partial_update"; "destroy"])
    eqn:E.
  - split; [|split; [|reflexivity]].
    + intros _. split; [reflexivity|].
      destruct u as [|pk []], target; reflexivity.
    + intros Hout. exfalso. apply Hout.
      apply existsb_exists in E. destruct E as (a & Ha & Heq).
      apply String.eqb_eq in Heq. now subst a.
  - split; [|split; [|reflexivity]].
    + intros Hin. exfalso.
      assert (existsb (String.eqb action)
                ["create"; "update"; "partial_update"; "destroy"] = true) as Habs.
      { apply existsb_exists. exists action. split; [exact Hin | apply String.eqb_refl]. }
      rewrite E in Habs. discriminate.
    + intros _. destruct target; repeat split.
Qed.

(** X2: the user and file-upload policies.  Listing users is granted
    exactly to staff and every other action on users to every caller;
    every action on file uploads, whatever its name and target, is
    granted exactly to staff. *)
Theorem user_and_upload_access_policy :
  forall (action : string) (u : user) (target : option Z),
    granted (UserViewSet.get_permissions "list") u target = user_is_staff u
    /\ (action <> "list" ->
        UserViewSet.get_permissions action = [AllowAny]
        /\ granted (UserViewSet.get_permissions action) u target = true)
    /\ granted FileUploadView.permission_classes u target = user_is_staff u
    /\ granted FileUploadView.permission_classes AnonymousUser target = false.
Proof.
  intros action u target.
  split; [destruct u as [|pk []], target; reflexivity|].
  split; [|split; [destruct u as [|pk []], target; reflexivity
                  | destruct target; reflexivity]].
  intros Hlist. unfold UserViewSet.get_permissions.
  destruct (String.eqb action "list") eqn:E;
    [apply String.eqb_eq in E; contradiction|].
  split; [reflexivity | destruct target; reflexivity].
Qed.

(** X3: the rating policy as the code has it.  Listing all ratings is
    granted exactly to staff; for every other action, ['create'] among
    them, the one permission is the owner rule, so an action on one
    rating is granted exactly to the user the rating belongs to, staff or
    not. *)
Theorem rating_access_policy :
  forall (action : string) (u : user) (owner : Z),
    granted (RatingViewSet.get_permissions "list") u None = user_is_staff u
    /\ (action <> "list" ->
        RatingViewSet.get_permissions action = [IsOwner]
        /\ (granted (RatingViewSet.get_permissions action) u (Some owner) = true
            <-> exists staff, u = User owner staff)).
Proof.
  intros action u owner.
  split; [destruct u as [|pk []]; reflexivity|].
  - intros Hlist.
    assert (RatingViewSet.get_permissions action = [IsOwner]) as Hperm.
    { unfold RatingViewSet.get_permissions, RatingViewSet.after_list_check.
      destruct (String.eqb action "list") eqn:E;
        [apply String.eqb_eq in E; contradiction | reflexivity]. }
    split; [exact Hperm|]. rewrite Hperm. unfold granted. simpl.
    rewrite andb_true_r. destruct u as [|pk staff]; simpl.
    + split; [discriminate | intros [staff H]; discriminate].
    + rewrite Z.eqb_eq. split.
      * intros ->. now exists staff.
      * intros [staff' H]. now inversion H.
Qed.

(** ** Keyword arguments of [save] *)

Lemma dict_get_absent (k : string) (d : dict) :
  ~ In k (map fst d) -> dict_get k d = None.
Proof.
  induction d as [|[k' v'] rest IH]; simpl; intros Hk; [reflexivity|].
  destruct (String.eqb k' k) eqn:E.
  - apply String.eqb_eq in E. tauto.
  - apply IH. tauto.
Qed.

Lemma dict_set_keys (k x : string) (v : value) (d : dict) :
  In x (map fst (dict_set k v d)) -> x = k \/ In x (map fst d).
Proof.
  induction d as [|[k' v'] rest IH]; simpl.
  - intros [<-|[]]. now left.
  - destruct (String.eqb k' k); simpl; intros [H|H]; tauto.
Qed.

(** Assigning a key keeps the keys of a dict distinct. *)
Lemma dict_set_keys_unique (k : string) (v : value) (d : dict) :
  NoDup (map fst d) -> NoDup (map fst (dict_set k v d)).
Proof.
  induction d as [|[k' v'] rest IH]; simpl; intros Hd.
  - repeat constructor. intros [].
  - inversion Hd as [|? ? Hfresh Hrest]; subst.
    destruct (String.eqb k' k) eqn:E; simpl; constructor; try assumption.
    + intros Hin. apply dict_set_keys in Hin. destruct Hin as [->|Hin]; [|tauto].
      rewrite String.eqb_refl in E. discriminate.
    + now apply IH.
Qed.

Lemma dict_merge_keys_unique (d kwargs : dict) :
  NoDup (map fst d) -> NoDup (map fst (dict_merge d kwargs)).
Proof.
  unfold dict_merge. revert d.
  induction kwargs as [|[k v] rest IH]; simpl; intros d Hd; [assumption|].
  apply IH. now apply dict_set_keys_unique.
Qed.

(** In [{**d, **kwargs}] a key of [kwargs] has the value [kwargs] gives
    it, and any other key the value it has in [d]. *)
Lemma dict_merge_get (k : string) (d kwargs : dict) :
  NoDup (map fst kwargs) ->
  dict_get k (dict_merge d kwargs)
  = match dict_get k kwargs with
    | Some v => Some v
    | None => dict_get k d
    end.
Proof.
  unfold dict_merge. revert d.
  induction kwargs as [|[k' v'] rest IH]; simpl; intros d Hkw; [reflexivity|].
  inversion Hkw as [|? ? Hfresh Hrest]; subst.
  rewrite (IH _ Hrest).
  destruct (String.eqb k' k) eqn:E.
  - apply String.eqb_eq in E. subst k'.
    rewrite (dict_get_absent k rest Hfresh). apply dict_get_set.
  - destruct (dict_get k rest); [reflexivity|].
    apply dict_get_set_other. intros ->. rewrite String.eqb_refl in E. discriminate.
Qed.

(** X4: a pool is created with the caller as [created_by] whatever the
    validated payload says about that field; every other field is stored
    as validated, and no field is stored twice. *)
Theorem pool_create_stamps_creator :
  forall (request : Request.t) (validated_data : dict),
    match Serializer.instance
            (PoolViewSet.perform_create request (Serializer.mk validated_data None))
    with
    | Some instance =>
        dict_get "created_by" instance = Some (VUser (Request.user request))
        /\ (forall field, field <> "created_by" ->
              dict_get field instance = dict_get field validated_data)
        /\ (NoDup (map fst validated_data) -> NoDup (map fst instance))
    | None => False
    end.
Proof.
  intros request validated_data.
  unfold PoolViewSet.perform_create, save. simpl.
  split; [apply dict_get_set|]. split.
  - intros field Hfield. apply dict_get_set_other. congruence.
  - apply dict_merge_keys_unique with (kwargs := [(_, _)]).
Qed.

(** What [save(updated_by=..., updated_at=...)] leaves on an instance
    that exists already. *)
Lemma save_update_stamps (u : user) (now : Z) (validated_data instance : dict) :
  NoDup (map fst validated_data) ->
  match Serializer.instance
          (save (Serializer.mk validated_data (Some instance))
             [("updated_by", VUser u); ("updated_at", VTime now)])
  with
  | Some updated =>
      dict_get "updated_by" updated = Some (VUser u)
      /\ dict_get "updated_at" updated = Some (VTime now)
      /\ (forall field, field <> "updated_by" -> field <> "updated_at" ->
            dict_get field updated
            = match dict_get field validated_data with
              | Some v => Some v
              | None => dict_get field instance
              end)
  | None => False
  end.
Proof.
  intros Hvd. unfold save. simpl.
  set (kwargs := [("updated_by", VUser u); ("updated_at", VTime now)]).
  assert (NoDup (map fst (dict_merge validated_data kwargs))) as Hmerged
    by now apply dict_merge_keys_unique.
  assert (NoDup (map fst kwargs)) as Hkw.
  { repeat constructor; simpl; intuition discriminate. }
  split; [|split].
  - now rewrite (dict_merge_get _ instance _ Hmerged), (dict_merge_get _ _ _ Hkw).
  - now rewrite (dict_merge_get _ instance _ Hmerged), (dict_merge_get _ _ _ Hkw).
  - intros field Hby Hat.
    rewrite (dict_merge_get _ instance _ Hmerged), (dict_merge_get _ _ _ Hkw).
    change (dict_get field kwargs)
      with (if String.eqb "updated_by" field then Some (VUser u)
            else if String.eqb "updated_at" field then Some (VTime now)
            else None).
    destruct (String.eqb_spec "updated_by" field) as [E1|_]; [congruence|].
    destruct (String.eqb_spec "updated_at" field) as [E2|_]; [congruence|].
    reflexivity.
Qed.

(** X5: an update of a pool or of a booking is stamped with the caller
    and the current time: [updated_by] and [updated_at] of the stored
    record are the caller and [timezone.now()] whatever the validated
    payload and the record held there, and every other field is the
    payload's value where the payload has one and the record's own value
    otherwise. *)
Theorem update_stamps_caller_and_time :
  forall (request : Request.t) (validated_data instance : dict),
    NoDup (map fst validated_data) ->
    Forall
      (fun perform_update : Request.t -> Serializer.t -> Serializer.t =>
         match Serializer.instance
                 (perform_update request (Serializer.mk validated_data (Some instance)))
         with
         | Some updated =>
             dict_get "updated_by" updated = Some (VUser (Request.user request))
             /\ dict_get "updated_at" updated = Some (VTime (Request.now request))
             /\ (forall field, field <> "updated_by" -> field <> "updated_at" ->
                   dict_get field updated
                   = match dict_get field validated_data with
                     | Some v => Some v
                     | None => dict_get field instance
                     end)
         | None => False
         end)
      [PoolViewSet.perform_update; BookingViewSet.perform_update].
Proof.
  intros request validated_data instance Hvd.
  repeat constructor;
    apply (save_update_stamps (Request.user request) (Request.now request)
             validated_data instance Hvd).
Qed.

Lemma update_stamps_caller_and_time_witness :
  let request := Request.mk (User 3 true) [] 1 (fun _ => "/pools/reef/") 1700 in
  let validated_data :=
    [("name", VStr "Reef"); ("updated_by", VUser (User 8 false)); ("updated_at", VTime 5)] in
  let instance :=
    [("slug", VStr "reef"); ("name", VStr "Old reef"); ("updated_by", VNone)] in
  Serializer.instance
    (PoolViewSet.perform_update request (Serializer.mk validated_data (Some instance)))
  = Some [("slug", VStr "reef"); ("name", VStr "Reef");
          ("updated_by", VUser (User 3 true)); ("updated_at", VTime 1700)]
  /\ Forall
       (fun perform_update : Request.t -> Serializer.t -> Serializer.t =>
          match Serializer.instance
                  (perform_update request (Serializer.mk validated_data (Some instance)))
          with
          | Some updated =>
              dict_get "updated_by" updated = Some (VUser (Request.user request))
              /\ dict_get "updated_at" updated = Some (VTime (Request.now request))
              /\ (forall field, field <> "updated_by" -> field <> "updated_at" ->
                    dict_get field updated
                    = match dict_get field validated_data with
                      | Some v => Some v
                      | None => dict_get field instance
                      end)
          | None => False
          end)
       [PoolViewSet.perform_update; BookingViewSet.perform_update].
Proof.
  split; [reflexivity|].
  apply update_stamps_caller_and_time.
  repeat constructor; simpl; intuition discriminate.
Defined.

(** X6: the booking view set translates integrity errors only.  Its
    answer to one is the same whatever text the storage layer put in the
    exception; every exception of another class is handed, as it is, to
    the generic [handle_exception], also when it comes out of a
    dispatched handler. *)
Theorem booking_conflict_translation :
  forall (super_handle_exception : exn -> result Response) (exc : exn),
    match exc_type exc with
    | IntegrityError =>
        forall other_text,
          BookingViewSet.handle_exception super_handle_exception exc
          = BookingViewSet.handle_exception super_handle_exception
              (mkExn IntegrityError other_text)
    | _ =>
        BookingViewSet.handle_exception super_handle_exception exc
        = super_handle_exception exc
        /\ forall (S : Type) (store : S),
             dispatch (BookingViewSet.handle_exception super_handle_exception) store
               (Raise exc)
             = dispatch super_handle_exception store (Raise exc)
    end.
Proof.
  intros super exc.
  unfold dispatch, BookingViewSet.handle_exception, isinstance_IntegrityError.
  destruct (exc_type exc); (intros other_text; reflexivity) || (split; reflexivity).
Qed.

(** ** The ratings of one user *)

(** X7: [user_ratings] answers 401 to an anonymous caller.  To an
    authenticated caller it shows, as a bare list with status 200, rows
    that are all ratings of the table made by the caller, newest first:
    never a rating of somebody else, every one of the caller's when the
    paginator cuts no page; the only exception it lets out is the
    paginator's [NotFound]. *)
Theorem user_ratings_of_caller :
  forall (settings : api_settings.t) (RatingSerializer : Rating.t -> json)
         (ratings : list Rating.t) (request : Request.t),
    match Request.user request with
    | AnonymousUser =>
        RatingViewSet.user_ratings settings RatingSerializer ratings request
        = Ok (mkResponse (JDict [("detail", JStr "User not known")]) 401)
    | User pk _ =>
        match RatingViewSet.user_ratings settings RatingSerializer ratings request with
        | Ok response =>
            exists rows,
              response = mkResponse (JList (map RatingSerializer rows)) 200
              /\ StronglySorted (newest_first Rating.created_at) rows
              /\ (forall r, In r rows -> In r ratings /\ Rating.user r = pk)
              /\ (paginate_queryset settings request
                    (order_by_desc Rating.created_at
                       (filter (fun r => Rating.user r =? pk) ratings)) = Ok None ->
                  Permutation rows (filter (fun r => Rating.user r =? pk) ratings))
        | Raise exc => exc_type exc = NotFound
        end
    end.
Proof.
  intros settings S ratings request.
  unfold RatingViewSet.user_ratings.
  destruct (Request.user request) as [|pk staff]; simpl; [reflexivity|].
  destruct (own_rows_newest_first Rating.created_at Rating.user pk ratings)
    as (Hin & Hsorted & Hperm).
  pose proof (paginate_queryset_cases settings request
                (order_by_desc Rating.created_at
                   (filter (fun r => Rating.user r =? pk) ratings))) as Hp.
  destruct (paginate_queryset settings request _) as [[page|]|exc]; simpl.
  - destruct Hp as (bottom & top & Hrows).
    exists (Page.object_list page). split; [reflexivity|]. rewrite Hrows.
    split; [now apply slice_sorted|]. split; [|discriminate].
    intros r Hr. apply slice_In in Hr. now apply Hin.
  - eexists. split; [reflexivity|]. split; [exact Hsorted|].
    split; [apply Hin | intros _; exact Hperm].
  - exact Hp.
Qed.

(** ** Registering a user *)

Section Register.
Variable UserSerializer_is_valid : list UserRow.t -> Request.t -> result dict.
Variable User_objects_create : list UserRow.t -> dict -> result UserRow.t.
Variable UserSerializer_data : UserRow.t -> list (string * json).
Variable RefreshToken_for_user : UserRow.t -> string * string.
Variable APIView_handle_exception : exn -> result Response.

(** X8: when [create] returns, exactly one row, the one the user manager
    built from the validated data, has been added after the users there
    were; the tokens of the response are those of a stored user whose
    primary key is the ['id'] the serializer reports; and the response is
    a 201 whose body says so too and carries the serializer's data under
    ['user']. *)
Theorem register_success :
  forall (users users' : list UserRow.t) (request : Request.t) (response : Response),
    RegisterAPIView.create UserSerializer_is_valid User_objects_create
      UserSerializer_data RefreshToken_for_user users request
    = Ok (response, users') ->
    exists validated_data row found,
      UserSerializer_is_valid users request = Ok validated_data
      /\ User_objects_create users validated_data = Ok row
      /\ users' = (users ++ [row])%list
      /\ In found users'
      /\ json_get "id" (JDict (UserSerializer_data row)) = Some (JInt (UserRow.id found))
      /\ status_code response = 201
      /\ data response
         = JDict [("status", JInt 201);
                  ("message", JStr "User registered successfully");
                  ("user", JDict (UserSerializer_data row));
                  ("refresh", JStr (fst (RefreshToken_for_user found)));
                  ("access", JStr (snd (RefreshToken_for_user found)))].
Proof.
  intros users users' request response.
  unfold RegisterAPIView.create, RegisterAPIView.super_create, bind.
  destruct (UserSerializer_is_valid users request) as [validated_data|exc] eqn:Hvalid;
    [|discriminate].
  destruct (User_objects_create users validated_data) as [row|exc] eqn:Hcreate;
    [|discriminate].
  cbn [fst snd data]. unfold RegisterAPIView.User_objects_get.
  destruct (json_get "id" (JDict (UserSerializer_data row))) as [[|pk|q|s|l|kv]|] eqn:Hid;
    try discriminate.
  destruct (find (fun r => UserRow.id r =? pk) (users ++ [row])) as [found|] eqn:Hfind;
    [|discriminate].
  intros H. inversion H; subst; clear H.
  apply find_some in Hfind. destruct Hfind as [Hin Hpk].
  apply Z.eqb_eq in Hpk. subst pk.
  exists validated_data, row, found. repeat split; assumption.
Qed.

(** X9: a payload the serializer rejects registers nobody: whatever the
    credentials, the answer is the generic handler's answer to that very
    exception and the stored users are the ones there were; the user
    manager is not consulted. *)
Theorem register_invalid_payload_stores_nothing :
  forall (users : list UserRow.t) (http : HttpRequest.t) (exc : exn),
    UserSerializer_is_valid users
      (Request.mk AnonymousUser (HttpRequest.body http) (HttpRequest.page http)
         (HttpRequest.page_link http) (HttpRequest.now http))
    = Raise exc ->
    RegisterAPIView.post UserSerializer_is_valid User_objects_create
      UserSerializer_data RefreshToken_for_user APIView_handle_exception users http
    = match APIView_handle_exception exc with
      | Ok response => Ok (response, users)
      | Raise uncaught => Raise uncaught
      end.
Proof.
  intros users http exc Hinvalid.
  unfold RegisterAPIView.post, RegisterAPIView.authentication_classes,
    RegisterAPIView.permission_classes.
  rewrite initial_without_authentication by reflexivity. simpl.
  unfold RegisterAPIView.create, RegisterAPIView.super_create.
  rewrite Hinvalid. reflexivity.
Qed.

End Register.

Lemma register_success_witness :
  let is_valid := fun (_ : list UserRow.t) (r : Request.t) => Ok (Request.data r) in
  let create := fun (users : list UserRow.t) (_ : dict) =>
    Ok (UserRow.mk (Z.of_nat (List.length users) + 1) "ada" "ada@example.org" false) in
  let serializer_data := fun row =>
    [("id", JInt (UserRow.id row)); ("username", JStr (UserRow.username row))] in
  let tokens := fun row =>
    ("refresh." ++ UserRow.username row, "access." ++ UserRow.username row) in
  let grace := UserRow.mk 1 "grace" "grace@example.org" true in
  let ada := UserRow.mk 2 "ada" "ada@example.org" false in
  let request :=
    Request.mk AnonymousUser [("username", VStr "ada")] 1 (fun _ => "/register/") 0 in
  let response :=
    mkResponse
      (JDict [("status", JInt 201);
              ("message", JStr "User registered successfully");
              ("user", JDict [("id", JInt 2); ("username", JStr "ada")]);
              ("refresh", JStr "refresh.ada");
              ("access", JStr "access.ada")])
      201 in
  RegisterAPIView.create is_valid create serializer_data tokens [grace] request
  = Ok (response, [grace; ada])
  /\ exists validated_data row found,
       is_valid [grace] request = Ok validated_data
       /\ create [grace] validated_data = Ok row
       /\ [grace; ada] = ([grace] ++ [row])%list
       /\ In found [grace; ada]
       /\ json_get "id" (JDict (serializer_data row)) = Some (JInt (UserRow.id found))
       /\ status_code response = 201
       /\ data response
          = JDict [("status", JInt 201);
                   ("message", JStr "User registered successfully");
                   ("user", JDict (serializer_data row));
                   ("refresh", JStr (fst (tokens found)));
                   ("access", JStr (snd (tokens found)))].
Proof.
  split; [reflexivity|].
  apply (register_success
           (fun (_ : list UserRow.t) (r : Request.t) => Ok (Request.data r))
           (fun (users : list UserRow.t) (_ : dict) =>
              Ok (UserRow.mk (Z.of_nat (List.length users) + 1)
                    "ada" "ada@example.org" false))).
  reflexivity.
Defined.

Lemma register_invalid_payload_stores_nothing_witness :
  let is_valid := fun (_ : list UserRow.t) (_ : Request.t) =>
    @Raise dict (mkExn ValidationError "user with this email already exists.") in
  let create := fun (users : list UserRow.t) (_ : dict) =>
    Ok (UserRow.mk (Z.of_nat (List.length users) + 1) "ada" "ada@example.org" false) in
  let serializer_data := fun row => [("id", JInt (UserRow.id row))] in
  let tokens := fun row =>
    ("refresh." ++ UserRow.username row, "access." ++ UserRow.username row) in
  let handle_exception := fun exc =>
    Ok (mkResponse (JList [JStr (exc_args exc)]) 400) in
  let ada := UserRow.mk 1 "ada" "ada@example.org" false in
  let http :=
    HttpRequest.mk (Some "t0k3n") [("email", VStr "ada@example.org")] 1
      (fun _ => "/register/") 0 in
  RegisterAPIView.post is_valid create serializer_data tokens handle_exception [ada] http
  = Ok (mkResponse (JList [JStr "user with this email already exists."]) 400, [ada]).
Proof.
  apply (register_invalid_payload_stores_nothing
           (fun (_ : list UserRow.t) (_ : Request.t) =>
              @Raise dict (mkExn ValidationError "user with this email already exists."))
           (fun (users : list UserRow.t) (_ : dict) =>
              Ok (UserRow.mk (Z.of_nat (List.length users) + 1)
                    "ada" "ada@example.org" false))
           (fun row => [("id", JInt (UserRow.id row))])
           (fun row =>
              ("refresh." ++ UserRow.username row, "access." ++ UserRow.username row))
           (fun exc => Ok (mkResponse (JList [JStr (exc_args exc)]) 400))
           [UserRow.mk 1 "ada" "ada@example.org" false]
           (HttpRequest.mk (Some "t0k3n") [("email", VStr "ada@example.org")] 1
              (fun _ => "/register/") 0)
           (mkExn ValidationError "user with this email already exists.")).
  reflexivity.
Defined.

(** ** Walking the pages of a listing *)

Section PagesCover.
Context {A : Type}.
Variable per_page : nat.
Hypothesis per_page_positive : (0 < per_page)%nat.

Lemma firstn_plus (a b : nat) (rows : list A) :
  firstn (a + b) rows = (firstn a rows ++ firstn b (skipn a rows))%list.
Proof.
  revert rows; induction a as [|a IH]; intros [|x rest]; simpl; try reflexivity.
  - now rewrite firstn_nil.
  - now rewrite IH.
Qed.

Lemma num_pages_cover (count : nat) :
  (count <= num_pages count per_page * per_page)%nat.
Proof.
  unfold num_pages.
  pose proof (Nat.div_mod_eq (Nat.max 1 count + per_page - 1) per_page) as Hdiv.
  pose proof (Nat.mod_upper_bound (Nat.max 1 count + per_page - 1) per_page) as Hmod.
  nia.
Qed.

Lemma Paginator_page_valid (rows : list A) (number : nat) :
  (1 <= number <= num_pages (List.length rows) per_page)%nat ->
  Paginator_page per_page number rows
  = Ok (Page.mk (page_rows per_page rows number) number (List.length rows) per_page).
Proof.
  intros [Hlow Hhigh]. unfold Paginator_page.
  destruct (number <? 1)%nat eqn:E1; [apply Nat.ltb_lt in E1; lia|].
  destruct (num_pages (List.length rows) per_page <? number)%nat eqn:E2;
    [apply Nat.ltb_lt in E2; lia|].
  f_equal. f_equal. unfold slice, page_rows.
  destruct (List.length rows <=? (number - 1) * per_page + per_page)%nat eqn:E3.
  - apply Nat.leb_le in E3.
    rewrite !firstn_all2; try reflexivity; rewrite length_skipn; lia.
  - f_equal. lia.
Qed.

Lemma Paginator_page_invalid (rows : list A) (number : nat) :
  (number < 1 \/ num_pages (List.length rows) per_page < number)%nat ->
  Paginator_page per_page number rows = Raise (mkExn NotFound "Invalid page.").
Proof.
  intros H. unfold Paginator_page.
  destruct (number <? 1)%nat eqn:E1; [reflexivity|].
  destruct (num_pages (List.length rows) per_page <? number)%nat eqn:E2; [reflexivity|].
  apply Nat.ltb_ge in E1, E2. lia.
Qed.

Lemma pages_up_to (rows : list A) (k : nat) :
  List.concat (map (page_rows per_page rows) (seq 1 k)) = firstn (k * per_page) rows.
Proof.
  induction k as [|k IH]; [reflexivity|].
  rewrite seq_S, map_app, concat_app, IH.
  cbn [map List.concat]. rewrite app_nil_r. unfold page_rows.
  replace (1 + k - 1)%nat with k by lia.
  replace (S k * per_page)%nat with (k * per_page + per_page)%nat by lia.
  now rewrite firstn_plus.
Qed.

(** The pages 1 to [num_pages], one after the other, are the rows. *)
Lemma pages_cover (rows : list A) :
  List.concat (map (page_rows per_page rows) (seq 1 (num_pages (List.length rows) per_page))) = rows.
Proof.
  rewrite pages_up_to. apply firstn_all2. apply num_pages_cover.
Qed.

End PagesCover.

(** X10: with page-number pagination on, asking [recent_bookings] for
    the pages 1 to [num_pages] in turn shows every booking of the caller
    exactly once and in order: each of these pages is answered with the
    envelope around its run of rows, the runs laid end to end are the
    caller's bookings newest first, and any other page number is the
    paginator's [NotFound]. *)
Theorem recent_bookings_pages_cover :
  forall (settings : api_settings.t) (page_size : nat)
         (BookingSerializer : Booking.t -> json) (bookings : list Booking.t)
         (pk : Z) (staff : bool) (body : dict) (link : nat -> string) (now : Z),
    api_settings.DEFAULT_PAGINATION_CLASS settings = true ->
    api_settings.PAGE_SIZE settings = Some page_size ->
    (0 < page_size)%nat ->
    let mine :=
      order_by_desc Booking.created_at
        (filter (fun b => Booking.user b =? pk) bookings) in
    let pages := num_pages (List.length mine) page_size in
    let request := fun number => Request.mk (User pk staff) body number link now in
    (forall number, (1 <= number <= pages)%nat ->
       BookingViewSet.recent_bookings settings BookingSerializer bookings (request number)
       = Ok (get_paginated_response (request number)
               (Page.mk (page_rows page_size mine number) number
                  (List.length mine) page_size)
               (serializer_data BookingSerializer (page_rows page_size mine number))))
    /\ (forall number, (number < 1 \/ pages < number)%nat ->
          BookingViewSet.recent_bookings settings BookingSerializer bookings
            (request number)
          = Raise (mkExn NotFound "Invalid page."))
    /\ List.concat (map (page_rows page_size mine) (seq 1 pages)) = mine.
Proof.
  intros settings page_size BS bookings pk staff body link now Hclass Hsize Hpos
    mine pages request.
  assert (forall number,
             paginate_queryset settings (request number) mine
             = (page <- Paginator_page page_size number mine ;; Ok (Some page)))
    as Hpaginate.
  { intros number. unfold paginate_queryset. rewrite Hclass, Hsize. simpl.
    destruct page_size; [lia | reflexivity]. }
  split; [|split].
  - intros number Hnumber. unfold BookingViewSet.recent_bookings. simpl.
    fold mine. fold (request number). rewrite Hpaginate.
    now rewrite (Paginator_page_valid page_size Hpos mine number Hnumber).
  - intros number Hnumber. unfold BookingViewSet.recent_bookings. simpl.
    fold mine. fold (request number). rewrite Hpaginate.
    now rewrite (Paginator_page_invalid page_size Hpos mine number Hnumber).
  - now apply pages_cover.
Qed.

Lemma recent_bookings_pages_cover_witness :
  let settings := api_settings.mk true (Some 2%nat) in
  let booking := fun slug created_at => Booking.mk slug 1 7 created_at None None in
  let bookings :=
    [booking "a" 10; Booking.mk "x" 2 7 15 None None; booking "b" 30; booking "c" 20] in
  let mine := [booking "b" 30; booking "c" 20; booking "a" 10] in
  order_by_desc Booking.created_at (filter (fun b => Booking.user b =? 1) bookings) = mine
  /\ num_pages (List.length mine) 2 = 2%nat
  /\ List.concat (map (page_rows 2 mine) (seq 1 2)) = mine.
Proof.
  split; [reflexivity|]. split; [reflexivity|].
  apply (recent_bookings_pages_cover (api_settings.mk true (Some 2%nat)) 2
           (fun b => JStr (Booking.slug b))
           [Booking.mk "a" 1 7 10 None None; Booking.mk "x" 2 7 15 None None;
            Booking.mk "b" 1 7 30 None None; Booking.mk "c" 1 7 20 None None]
           1 false [] (fun _ => "/bookings/recent_bookings/") 0);
    [reflexivity | reflexivity | lia].
Defined.
